(** * CSS3 completions: the completion classifier of [css3_completions.py]

    A shallow embedding of the Sublime Text plugin's [on_query_completions]
    and of its helpers, followed by the properties the specification states
    about them.

    - Python values: [str] is [string] (ASCII), [int] is [Z], a [list] is a
      [list], a [dict] is a [gmap], a set of names is a [gset], a tuple of
      strings is a [list string].
    - Python exceptions: a computation that can raise returns [M A]; the
      functions that cannot raise return plain values.
    - The host editor: [View] holds the two methods of [sublime.View] the
      plugin calls, as total functions.
    - The completion data modules [d], [f], [p], [s], [t] are not part of
      the plugin's logic; the names the plugin reads from them are the
      fields of [Tables]. *)

From Stdlib Require Import ZArith Strings.String Strings.Ascii List Bool Lia.
From stdpp Require Import base option gmap strings list.

Import ListNotations.
Local Open Scope string_scope.
Local Open Scope Z_scope.

(** ** Python primitives *)

Module Py.

(** The only exception the plugin's own operations can raise. *)
Inductive exn : Type := IndexError.

Inductive M (A : Type) : Type :=
| Ok (a : A)
| Raise (e : exn).
Arguments Ok {A} a.
Arguments Raise {A} e.

Definition bind {A B : Type} (m : M A) (k : A → M B) : M B :=
  match m with
  | Ok a => k a
  | Raise e => Raise e
  end.

(** [len(x)] of a list and of a string. *)
Definition len {A : Type} (l : list A) : Z := Z.of_nat (List.length l).
Definition len_str (s : string) : Z := Z.of_nat (String.length s).

(** [l[i]]: a negative index counts from the end, an index out of range
    raises [IndexError]. *)
Definition getitem {A : Type} (l : list A) (i : Z) : M A :=
  let j := (if i <? 0 then i + len l else i)%Z in
  if ((0 <=? j) && (j <? len l))%Z
  then match nth_error l (Z.to_nat j) with
       | Some x => Ok x
       | None => Raise IndexError
       end
  else Raise IndexError.

(** [s.startswith(prefix)]. *)
Definition startswith (s pre : string) : bool := String.prefix pre s.

(** [s.split(sep)] for a one-character separator: every occurrence of the
    separator ends a segment, empty segments are kept, and the result has
    one segment more than [s] has separators. *)
Fixpoint split_on (sep : ascii) (s : string) : list string :=
  match s with
  | EmptyString => [""]
  | String a s' =>
      if Ascii.eqb a sep then "" :: split_on sep s'
      else match split_on sep s' with
           | seg :: segs => String a seg :: segs
           | [] => [String a ""]
           end
  end.

(** [str.isspace] on ASCII characters. *)
Definition isspace (a : ascii) : bool :=
  let n := N_of_ascii a in
  ((9 <=? n) && (n <=? 13) || (28 <=? n) && (n <=? 32))%N.

(** [s.split()]: split on runs of whitespace, no empty words. [cur] is the
    word being read, if any. *)
Fixpoint split_ws_go (cur : option string) (s : string) : list string :=
  match s with
  | EmptyString => match cur with Some w => [w] | None => [] end
  | String a s' =>
      if isspace a
      then match cur with
           | Some w => w :: split_ws_go None s'
           | None => split_ws_go None s'
           end
      else split_ws_go (Some (match cur with
                              | Some w => w ++ String a ""
                              | None => String a ""
                              end)) s'
  end.

Definition split_ws (s : string) : list string := split_ws_go None s.

(** [" ".join(l)]. *)
Fixpoint join_sp (l : list string) : string :=
  match l with
  | [] => ""
  | [x] => x
  | x :: l' => x ++ " " ++ join_sp l'
  end.

(** Truthiness of a string: non-empty. *)
Definition truthy (s : string) : bool :=
  match s with EmptyString => false | _ => true end.

(** [c in s] for a character [c]. *)
Fixpoint has_char (c : ascii) (s : string) : bool :=
  match s with
  | EmptyString => false
  | String a s' => Ascii.eqb a c || has_char c s'
  end.

End Py.

Import Py.

(** The error monad in stdpp's notation, [x ← m; k]. *)
#[global] Instance M_ret : MRet M := @Ok.
#[global] Instance M_bind : MBind M := λ A B k m, bind m k.

(** ** The host editor: the part of the [sublime] module the plugin uses *)

Module sublime.

(** [sublime.INHIBIT_WORD_COMPLETIONS]. *)
Definition INHIBIT_WORD_COMPLETIONS : Z := 8.

(** [sublime.View]: the two methods the plugin calls. Both are total
    queries of the document; the plugin never changes the view. *)
Record View : Type := {
  match_selector : Z → string → bool;
  scope_name : Z → string
}.

End sublime.

Import sublime.

(** ** The completion data *)

(** A completion item is a tuple of strings: [(label, snippet)] or the
    one-element [(snippet,)]. *)
Definition completion : Type := list string.

(** What [on_query_completions] hands back to the host: [None] when the
    function falls off its end, a bare list, or a [(list, flags)] tuple. *)
Inductive result : Type :=
| RNone
| RList (completions : list completion)
| RTuple (completions : list completion) (flags : Z).

(** The list a result carries. *)
Definition completions_of (r : result) : list completion :=
  match r with
  | RNone => []
  | RList completions => completions
  | RTuple completions _ => completions
  end.

(** The names the plugin reads from the modules [CSS3.completions.descriptors]
    ([d]), [functions] ([f]), [properties] ([p]), [selectors] ([s]) and
    [types] ([t]). The modules themselves are reference data outside the
    plugin file, so their contents are taken as given. *)
Record Tables : Type := {
  d_font_face_descriptors : list completion;
  d_viewport_descriptors : list completion;
  d_counter_style_descriptors : list completion;
  d_color_profile_descriptors : list completion;
  d_at_rule_to_completions_dict : gmap string (gmap string (list completion));
  f_func_name_to_completions : gmap string (list completion);
  f_allow_word_completions : gset string;
  p_names : list completion;
  p_name_to_completions : gmap string (list completion);
  p_allow_word_completions : gset string;
  s_at_rules : list completion;
  s_pseudo_elements : list completion;
  s_pseudo_classes : list completion;
  s_html_tags : list completion;
  s_nestable_at_rules : list completion;
  s_keyframes_selector : list completion;
  s_font_feature_types : list completion;
  s_page_margin_boxes : list completion;
  s_at_page_selectors : list completion;
  t_var : completion
}.

(** The double quote character, for the [@charset] completion. *)
Definition dquote : ascii := "034"%char.

(** [('"UTF-8";',)] *)
Definition charset_completion : completion :=
  [String dquote ("UTF-8" ++ String dquote ";")].

(** ** The plugin *)

Section Plugin.

Context (T : Tables).

Definition get_current_scopes (view : View) (location : Z) : list string :=
  split_ws (scope_name view location).

(** The loop of [get_name], over [reversed(scopes)]. *)
Fixpoint get_name_loop (rscopes : list string) (prefix : string) : M string :=
  let name_index := -2 in
  match rscopes with
  | [] => Ok ""
  | scope :: rest =>
      if startswith scope prefix
      then getitem (split_on "." scope) name_index
      else get_name_loop rest prefix
  end.

Definition get_name (scopes : list string) (prefix : string) : M string :=
  get_name_loop (rev scopes) prefix.

Definition get_functions (current_scopes : list string) : M result :=
  func_name ← get_name current_scopes "meta.function.";
  let completions :=
    (default [] (f_func_name_to_completions T !! func_name) ++ [t_var T])%list in
  if truthy func_name && bool_decide (func_name ∈ f_allow_word_completions T)
  then Ok (RList completions)
  else Ok (RTuple completions INHIBIT_WORD_COMPLETIONS).

Definition get_descriptors (current_scopes : list string) (descriptors_for : string)
  : M result :=
  descriptor_name ← get_name current_scopes ("meta.descriptor." ++ descriptors_for);
  let completions_dict :=
    default ∅ (d_at_rule_to_completions_dict T !! descriptors_for) in
  let completions :=
    (default [] (completions_dict !! descriptor_name) ++ [t_var T])%list in
  if truthy descriptor_name && bool_decide (descriptor_name ∈ f_allow_word_completions T)
  then Ok (RList completions)
  else Ok (RTuple completions INHIBIT_WORD_COMPLETIONS).

Definition get_property_values (current_scopes : list string) : M result :=
  property_name ← get_name current_scopes "meta.property-value-pair.";
  let completions :=
    (default [] (p_name_to_completions T !! property_name) ++ [t_var T])%list in
  if truthy property_name && bool_decide (property_name ∈ p_allow_word_completions T)
  then Ok (RList completions)
  else Ok (RTuple completions INHIBIT_WORD_COMPLETIONS).

Definition scopes_that_forbid_nested_at_rules : string :=
  "meta.property-list.css, meta.at-rule.font-face.block.css, meta.at-rule.keyframes.block.css, meta.at-rule.font-feature-values.block.css, meta.at-rule.viewport.block.css, meta.at-rule.color-profile.block.css, meta.at-rule.counter-style.block.css, meta.at-rule.page.block.css".

Definition property_name_scope (view : View) (location : Z) : bool :=
  match_selector view location
    "source.css meta.property-list.css -meta.property-value-pair"
  || match_selector view location
       "source.css meta.page-margin-box.css -meta.property-value-pair".

Definition should_offer_at_rule_completions (view : View) (location : Z) : bool :=
  if negb (match_selector view location
             "meta.at-rule.media.block.css, meta.at-rule.supports.block.css")
  then false
  else negb (match_selector view location scopes_that_forbid_nested_at_rules).

Definition handle_selector_completions (view : View) (location : Z) : result :=
  if match_selector view (location - 1)
       "punctuation.definition.entity.pseudo-element.css"
  then RTuple (s_pseudo_elements T) INHIBIT_WORD_COMPLETIONS
  else if match_selector view (location - 1)
            "punctuation.definition.entity.pseudo-class.css"
  then RTuple (s_pseudo_classes T) INHIBIT_WORD_COMPLETIONS
  else if match_selector view location "source.css -entity.other.attribute-name."
  then RList (s_html_tags T)
  else RNone.

(** The branches of [handle_completions_inside_at_rules] that follow the
    nested at-rule test. *)
Definition at_rule_kinds (view : View) (location : Z) (current_scopes : list string)
  : M result :=
  if match_selector view location
       "meta.at-rule.keyframes.block.css -meta.keyframes-declaration-list.css"
  then Ok (RTuple (s_keyframes_selector T) INHIBIT_WORD_COMPLETIONS)
  else if match_selector view location "meta.at-rule.font-face.block.css"
  then
    if match_selector view location "source.css -meta.descriptor.font-face"
    then Ok (RTuple (d_font_face_descriptors T) INHIBIT_WORD_COMPLETIONS)
    else get_descriptors current_scopes "font-face"
  else if match_selector view location "meta.at-rule.font-feature-values.block.css"
  then
    if match_selector view location "-meta.font-feature-type-block.css"
    then Ok (RTuple (s_font_feature_types T) INHIBIT_WORD_COMPLETIONS)
    else Ok (RList [])
  else if match_selector view location "meta.at-rule.viewport.block.css"
  then
    if match_selector view location "source.css -meta.descriptor.viewport"
    then Ok (RTuple (d_viewport_descriptors T) INHIBIT_WORD_COMPLETIONS)
    else get_descriptors current_scopes "viewport"
  else if match_selector view location
            "meta.at-rule.page.block.css -meta.page-margin-box.css"
  then Ok (RTuple (s_page_margin_boxes T) INHIBIT_WORD_COMPLETIONS)
  else if match_selector view location
            "meta.at-rule.page.css -meta.at-rule.page.block.css"
  then Ok (RList (s_at_page_selectors T))
  else if match_selector view location "meta.at-rule.charset.css"
  then Ok (RTuple [charset_completion] INHIBIT_WORD_COMPLETIONS)
  else if match_selector view location "meta.at-rule.counter-style.block.css"
  then
    if match_selector view location "-meta.descriptor.counter-style"
    then Ok (RTuple (d_counter_style_descriptors T) INHIBIT_WORD_COMPLETIONS)
    else get_descriptors current_scopes "counter-style"
  else if match_selector view location "meta.at-rule.color-profile.block.css"
  then
    if match_selector view location "-meta.descriptor.color-profile"
    then Ok (RTuple (d_color_profile_descriptors T) INHIBIT_WORD_COMPLETIONS)
    else get_descriptors current_scopes "color-profile"
  else Ok RNone.

Definition handle_completions_inside_at_rules (view : View) (location : Z)
  : M result :=
  let current_scopes := get_current_scopes view location in
  if should_offer_at_rule_completions view location
  then Ok (RTuple (s_nestable_at_rules T) INHIBIT_WORD_COMPLETIONS)
  else at_rule_kinds view location current_scopes.

Definition on_query_completions (view : View) (prefix : string) (locations : list Z)
  : M result :=
  if len locations >? 1
  then Ok (RTuple [] INHIBIT_WORD_COMPLETIONS)
  else
    location ← getitem locations 0;
    if match_selector view location "comment.block.css"
    then Ok (RList [])
    else
      let start := location - len_str prefix in
      let current_scopes := get_current_scopes view start in
      if match_selector view start "source.css meta.function"
      then get_functions current_scopes
      else if match_selector view start
                "source.css -meta.at-rule -meta.property-list.css"
              && match_selector view (start - 1) "punctuation.definition.keyword.css"
      then Ok (RTuple (s_at_rules T) INHIBIT_WORD_COMPLETIONS)
      else if match_selector view start "source.css meta.at-rule"
      then handle_completions_inside_at_rules view start
      else if property_name_scope view start
      then Ok (RTuple (p_names T) INHIBIT_WORD_COMPLETIONS)
      else if match_selector view start "source.css meta.property-value-pair"
      then get_property_values current_scopes
      else if match_selector view start "meta.selector.css"
      then Ok (handle_selector_completions view start)
      else Ok RNone.

(** What a lookup returns for an extracted name, the table's list for it
    and an allow set: the shape shared by the three lookups. *)
Definition lookup_result (name : string) (base : list completion)
    (allow : gset string) : result :=
  if truthy name && bool_decide (name ∈ allow)
  then RList (base ++ [t_var T])
  else RTuple (base ++ [t_var T]) INHIBIT_WORD_COMPLETIONS.

(** The scope predicates of the six top-level branches of
    [on_query_completions], in the order they are tested: function
    argument, at-rule introducer, inside an at-rule, property name,
    property value, selector. *)
Definition branch_predicates (view : View) (start : Z) : list bool :=
  [ match_selector view start "source.css meta.function";
    match_selector view start "source.css -meta.at-rule -meta.property-list.css"
    && match_selector view (start - 1) "punctuation.definition.keyword.css";
    match_selector view start "source.css meta.at-rule";
    property_name_scope view start;
    match_selector view start "source.css meta.property-value-pair";
    match_selector view start "meta.selector.css" ].

(** What each branch returns, in the same order. *)
Definition branch_handlers (view : View) (start : Z) : list (M result) :=
  [ get_functions (get_current_scopes view start);
    Ok (RTuple (s_at_rules T) INHIBIT_WORD_COMPLETIONS);
    handle_completions_inside_at_rules view start;
    Ok (RTuple (p_names T) INHIBIT_WORD_COMPLETIONS);
    get_property_values (get_current_scopes view start);
    Ok (handle_selector_completions view start) ].

(** The nested at-rule list is told apart from every other answer of the
    at-rule handler: it is none of the other keyword lists, and it does not
    end in the [var()] completion every descriptor lookup ends in. *)
Definition nestable_at_rules_distinct : bool :=
  bool_decide (s_nestable_at_rules T ∉
    [ s_keyframes_selector T; d_font_face_descriptors T; s_font_feature_types T;
      d_viewport_descriptors T; s_page_margin_boxes T; [charset_completion];
      d_counter_style_descriptors T; d_color_profile_descriptors T ])
  && bool_decide (last (s_nestable_at_rules T) ≠ Some (t_var T)).

End Plugin.

(** The handler of the first predicate that holds; no result when none
    holds. *)
Fixpoint first_match (predicates : list bool) (handlers : list (M result)) : M result :=
  match predicates, handlers with
  | p :: predicates', h :: handlers' =>
      if p then h else first_match predicates' handlers'
  | _, _ => Ok RNone
  end.

Definition count_true (bs : list bool) : nat := List.length (List.filter id bs).

Definition at_most_one (bs : list bool) : Prop := (count_true bs ≤ 1)%nat.

(** The tests by which [handle_completions_inside_at_rules] recognises the
    kind of at-rule, after the nested at-rule test: one for each outer
    [if] of the function, in its order. *)
Definition at_rule_kind_recognized (view : View) (location : Z) : bool :=
  match_selector view location
    "meta.at-rule.keyframes.block.css -meta.keyframes-declaration-list.css"
  || match_selector view location "meta.at-rule.font-face.block.css"
  || match_selector view location "meta.at-rule.font-feature-values.block.css"
  || match_selector view location "meta.at-rule.viewport.block.css"
  || match_selector view location
       "meta.at-rule.page.block.css -meta.page-margin-box.css"
  || match_selector view location
       "meta.at-rule.page.css -meta.at-rule.page.block.css"
  || match_selector view location "meta.at-rule.charset.css"
  || match_selector view location "meta.at-rule.counter-style.block.css"
  || match_selector view location "meta.at-rule.color-profile.block.css".

(** ** Scope selectors over a stack of scope labels *)

(** Modelled from the spec: the host's [match_selector], which belongs to
    the editor and not to the plugin. The spec describes it as testing
    whether the scope-label stack at an offset satisfies a boolean
    expression over scope-label prefixes: an AND of "has prefix" and "lacks
    prefix" terms, with OR written as comma-separated alternatives. *)
Module Selector.

Inductive term : Type :=
| Has (p : string)
| Lacks (p : string).

Definition parse_term (w : string) : term :=
  match w with
  | String "-"%char p => Lacks p
  | _ => Has w
  end.

(** Alternatives are separated by commas, the terms of an alternative by
    white space. *)
Definition parse (selector : string) : list (list term) :=
  map (λ alt, map parse_term (split_ws alt)) (split_on "," selector).

(** Some label of the stack starts with [p]. *)
Definition has_prefix (p : string) (stack : list string) : bool :=
  existsb (λ label, startswith label p) stack.

Definition sat_term (stack : list string) (t : term) : bool :=
  match t with
  | Has p => has_prefix p stack
  | Lacks p => negb (has_prefix p stack)
  end.

Definition eval (alts : list (list term)) (stack : list string) : bool :=
  existsb (forallb (sat_term stack)) alts.

(** Modelled from the spec: [matchesSelector], on the stack of one
    offset. *)
Definition matches (selector : string) (stack : list string) : bool :=
  eval (parse selector) stack.

End Selector.

(** A document, as the plugin sees it: the stack of scope labels at every
    position, outermost label first. *)
Definition document : Type := Z → list string.

(** The view of a document: [match_selector] evaluates the selector on the
    stack at the position, [scope_name] prints the stack the way the editor
    does, labels separated by spaces with one trailing space. *)
Definition view_of (doc : document) : View :=
  {| match_selector pt selector := Selector.matches selector (doc pt);
     scope_name pt := join_sp (doc pt) ++ " " |}.

(** The document whose stack is [stack] at position [pt] and [other]
    everywhere else. *)
Definition doc_at (pt : Z) (stack other : list string) : document :=
  λ q, if q =? pt then stack else other.

(** A scope label as the editor prints it: not empty, no white space. *)
Definition label_ok (label : string) : Prop :=
  label ≠ "" ∧ ∀ a, has_char a label = true → isspace a = false.

(** [label_ok], as a test. *)
Fixpoint has_space (s : string) : bool :=
  match s with
  | EmptyString => false
  | String a s' => isspace a || has_space s'
  end.

Definition label_okb (label : string) : bool :=
  truthy label && negb (has_space label).

(** In [split_ws_go]: the word being read, completed by the characters
    [w]. *)
Definition word_so_far (cur : option string) (w : string) : string :=
  match cur with Some c => c ++ w | None => w end.

(** *** Scope tests on a stack of labels *)

Definition in_media_or_supports_block (stack : list string) : bool :=
  Selector.has_prefix "meta.at-rule.media.block.css" stack
  || Selector.has_prefix "meta.at-rule.supports.block.css" stack.

(** The eight scopes that forbid nested at-rules. *)
Definition forbidding_scopes : list string :=
  [ "meta.property-list.css";
    "meta.at-rule.font-face.block.css";
    "meta.at-rule.keyframes.block.css";
    "meta.at-rule.font-feature-values.block.css";
    "meta.at-rule.viewport.block.css";
    "meta.at-rule.color-profile.block.css";
    "meta.at-rule.counter-style.block.css";
    "meta.at-rule.page.block.css" ].

Definition in_forbidding_scope (stack : list string) : bool :=
  existsb (λ p, Selector.has_prefix p stack) forbidding_scopes.




Definition in_stylesheet (stack : list string) : bool :=
  Selector.has_prefix "source.css" stack.

(** ** Sample data and documents *)

Definition sample_var : completion := ["var()"; "var(${1:--custom-property})"].

Definition sample_tables : Tables :=
  {| d_font_face_descriptors := [["font-family"]; ["src"]];
     d_viewport_descriptors := [["zoom"]];
     d_counter_style_descriptors := [["system"]; ["fallback"]];
     d_color_profile_descriptors := [["rendering-intent"]];
     d_at_rule_to_completions_dict :=
       {[ "counter-style" := {[ "fallback" := [["decimal"]] ]};
          "font-face" := {[ "font-display" := [["swap"]; ["block"]] ]} ]};
     f_func_name_to_completions :=
       {[ "counter" := [["decimal"]; ["disc"]]; "rgb" := [["<number>"]] ]};
     f_allow_word_completions := {[ "counter"; "attr" ]};
     p_names := [["color"]; ["animation-name"]];
     p_name_to_completions :=
       {[ "color" := [["red"]; ["blue"]]; "animation-name" := [["none"]] ]};
     p_allow_word_completions := {[ "animation-name" ]};
     s_at_rules := [["@media"]; ["@charset"]];
     s_pseudo_elements := [["::before"]; ["::after"]];
     s_pseudo_classes := [[":hover"]];
     s_html_tags := [["a"]; ["div"]];
     s_nestable_at_rules := [["@media"]; ["@supports"]];
     s_keyframes_selector := [["from"]; ["to"]];
     s_font_feature_types := [["@swash"]];
     s_page_margin_boxes := [["@top-right"]];
     s_at_page_selectors := [[":left"]; [":right"]];
     t_var := sample_var |}.

(** Modelled from the spec: the descriptors' own set of names that allow
    free-text completions ("descriptor tables keyed by at-rule family plus
    a parallel free-text allowed set"). The module [d] is outside the
    plugin file, and the plugin reads no such name from it. In
    [@counter-style], [fallback] takes the name of another counter style. *)
Definition sample_d_allow_word_completions : gset string := {[ "fallback" ]}.

(** Inside the arguments of [rgb()] in a property value. *)
Definition function_in_value_doc : document :=
  λ _, [ "source.css"; "meta.property-list.css"; "meta.property-value-pair.color.css";
         "meta.function.rgb.css" ].

(** A property list whose position 3 lies in a comment. *)
Definition comment_at_3_doc : document :=
  doc_at 3 [ "source.css"; "meta.property-list.css"; "comment.block.css" ]
           [ "source.css"; "meta.property-list.css" ].

(** A property list nested in an [@media] block. *)
Definition media_property_list_doc : document :=
  λ _, [ "source.css"; "meta.at-rule.media.block.css"; "meta.property-list.css" ].

(** Directly inside an [@media] block. *)
Definition media_block_doc : document :=
  λ _, [ "source.css"; "meta.at-rule.media.block.css" ].

(** A selector with [::] at position 4. *)
Definition after_pseudo_element_doc : document :=
  doc_at 4 [ "source.css"; "meta.selector.css";
             "punctuation.definition.entity.pseudo-element.css" ]
           [ "source.css"; "meta.selector.css" ].



(** The value of the [fallback] descriptor of [@counter-style]. *)
Definition fallback_descriptor_scopes : list string :=
  [ "source.css"; "meta.at-rule.counter-style.block.css";
    "meta.descriptor.counter-style.fallback.css" ].

(** Evaluate the selector parser on the selector literals of the goal. *)
Ltac eval_selectors :=
  unfold Selector.matches;
  repeat match goal with
  | |- context [Selector.parse ?s] =>
      let p := eval vm_compute in (Selector.parse s) in
      change (Selector.parse s) with p
  end;
  cbn [Selector.eval existsb forallb Selector.sat_term].

(** * Examples *)

Example split_on_ex :
  split_on "." "meta.function.foo.css" = ["meta"; "function"; "foo"; "css"].
Proof. reflexivity. Qed.

Example split_on_empty : split_on "." "" = [""].
Proof. reflexivity. Qed.

Example split_on_trailing : split_on "." "a..b." = ["a"; ""; "b"; ""].
Proof. reflexivity. Qed.

Example split_ws_ex :
  split_ws "source.css  meta.function.foo.css " = ["source.css"; "meta.function.foo.css"].
Proof. vm_compute. reflexivity. Qed.

Example getitem_ex :
  getitem ["a"; "b"; "c"] (-2) = Ok "b" ∧ getitem ["a"] (-2) = Raise IndexError.
Proof. split; reflexivity. Qed.

Example parse_ex :
  Selector.parse "source.css -meta.at-rule -meta.property-list.css"
  = [[Selector.Has "source.css"; Selector.Lacks "meta.at-rule";
      Selector.Lacks "meta.property-list.css"]].
Proof. vm_compute. reflexivity. Qed.

Example parse_alternatives_ex :
  Selector.parse "meta.at-rule.media.block.css, meta.at-rule.supports.block.css"
  = [[Selector.Has "meta.at-rule.media.block.css"];
     [Selector.Has "meta.at-rule.supports.block.css"]].
Proof. vm_compute. reflexivity. Qed.

(** The docstring of [get_name]. *)
Example get_name_docstring_ex :
  get_name ["source.css"; "meta.function.foo.css"] "meta.function" = Ok "foo"
  ∧ get_name ["source.css"; "meta.descriptor.color-profile.bar.css"]
      "meta.descriptor.color-profile" = Ok "bar"
  ∧ get_name ["source.css"; "meta.function.baz.css"]
      "meta.descriptor.color-profile" = Ok "".
Proof. repeat split; reflexivity. Qed.

(** The spec's example of rightmost priority. *)
Example get_name_rightmost_ex : get_name ["a.b.css"; "a.b.x.css"] "a.b" = Ok "x".
Proof. reflexivity. Qed.

(** Without a dot in the prefix the index can be out of range. *)
Example get_name_undotted_raises : get_name ["meta"] "me" = Raise IndexError.
Proof. reflexivity. Qed.

(** The spec's end-to-end scenario: in a property list, not in a
    property-value pair, with prefix ["col"]. *)
Example property_names_ex :
  on_query_completions sample_tables
    (view_of (λ _, ["source.css"; "meta.property-list.css"])) "col" [10]
  = Ok (RTuple (p_names sample_tables) INHIBIT_WORD_COMPLETIONS).
Proof. vm_compute. reflexivity. Qed.

(** The spec's end-to-end scenario: inside [counter()], with an empty
    prefix. *)
Example counter_function_ex :
  on_query_completions sample_tables
    (view_of (λ _, ["source.css"; "meta.function.counter.css"])) "" [10]
  = Ok (RList [["decimal"]; ["disc"]; sample_var]).
Proof. vm_compute. reflexivity. Qed.

(** The spec's end-to-end scenario: right after a pseudo-element
    introducer in a selector; and a tag name further on. *)
Example selector_dispatch_ex :
  on_query_completions sample_tables (view_of after_pseudo_element_doc) "" [5]
  = Ok (RTuple [["::before"]; ["::after"]] INHIBIT_WORD_COMPLETIONS)
  ∧ on_query_completions sample_tables (view_of after_pseudo_element_doc) "di" [9]
    = Ok (RList [["a"]; ["div"]]).
Proof. split; vm_compute; reflexivity. Qed.

(** [@charset] offers the one literal item. *)
Example charset_ex (T : Tables) :
  on_query_completions T
    (view_of (λ _, ["source.css"; "meta.at-rule.charset.css"])) "UT" [12]
  = Ok (RTuple [charset_completion] INHIBIT_WORD_COMPLETIONS).
Proof. vm_compute. reflexivity. Qed.

(** Outside every region the cascade knows, there is no result. *)
Example no_branch_ex :
  on_query_completions sample_tables (view_of (λ _, ["text.plain"])) "ab" [5] = Ok RNone.
Proof. vm_compute. reflexivity. Qed.

(** With no cursor position at all, [locations[0]] raises. *)
Example on_query_completions_no_cursor (T : Tables) (view : View) (prefix : string) :
  on_query_completions T view prefix [] = Raise IndexError.
Proof. reflexivity. Qed.

(** With no entry for the name, or no matching label at all, a lookup
    returns the [var()] completion alone. *)
Example lookups_empty_base_ex :
  get_functions sample_tables ["source.css"; "meta.function.nosuch.css"]
  = Ok (RTuple [sample_var] INHIBIT_WORD_COMPLETIONS)
  ∧ get_descriptors sample_tables ["source.css"] "viewport"
    = Ok (RTuple [sample_var] INHIBIT_WORD_COMPLETIONS)
  ∧ get_property_values sample_tables ["source.css"]
    = Ok (RTuple [sample_var] INHIBIT_WORD_COMPLETIONS).
Proof. repeat split; vm_compute; reflexivity. Qed.

(** * Python primitives: facts *)

Lemma split_on_nonempty sep s : split_on sep s ≠ [].
Proof.
  induction s as [|a s IH]; simpl; [done|].
  destruct (Ascii.eqb a sep); [done|].
  destruct (split_on sep s); done.
Qed.

Lemma split_on_length sep s :
  has_char sep s = true → (2 ≤ List.length (split_on sep s))%nat.
Proof.
  induction s as [|a s IH]; simpl; [done|].
  destruct (Ascii.eqb a sep); simpl.
  - intros _. pose proof (split_on_nonempty sep s).
    destruct (split_on sep s); [done|simpl; lia].
  - intros Hc. specialize (IH Hc).
    destruct (split_on sep s); simpl in *; lia.
Qed.

Lemma has_char_prefix c pre s :
  String.prefix pre s = true → has_char c pre = true → has_char c s = true.
Proof.
  revert s. induction pre as [|a pre IH]; intros s; [done|].
  destruct s as [|b s]; simpl; [done|].
  destruct (ascii_dec a b) as [->|]; [|done].
  intros Hp Hc. apply orb_true_iff in Hc as [Hc|Hc].
  - rewrite Hc. done.
  - rewrite (IH _ Hp Hc). apply orb_true_r.
Qed.

Lemma len_gt_1 {A} (l : list A) : (1 < List.length l)%nat → (len l >? 1) = true.
Proof. intros Hl. unfold len. apply Z.gtb_gt. lia. Qed.

Lemma getitem_penultimate {A} (segs : list A) x y :
  getitem (segs ++ [x; y])%list (-2) = Ok x.
Proof.
  unfold getitem, len. rewrite length_app. simpl List.length.
  replace (-2 <? 0) with true by done.
  replace (-2 + Z.of_nat (List.length segs + 2)) with (Z.of_nat (List.length segs)) by lia.
  replace (0 <=? Z.of_nat (List.length segs)) with true by (symmetry; apply Z.leb_le; lia).
  replace (Z.of_nat (List.length segs) <? Z.of_nat (List.length segs + 2)) with true
    by (symmetry; apply Z.ltb_lt; lia).
  simpl. rewrite Nat2Z.id.
  rewrite nth_error_app2 by lia. by rewrite Nat.sub_diag.
Qed.

Lemma penultimate_exists {A} (l : list A) :
  (2 ≤ List.length l)%nat → ∃ segs x y, l = (segs ++ [x; y])%list.
Proof.
  intros Hl.
  destruct (rev l) as [|y [|x r]] eqn:Hr.
  - apply (f_equal (@List.length A)) in Hr. rewrite length_rev in Hr. simpl in Hr. lia.
  - apply (f_equal (@List.length A)) in Hr. rewrite length_rev in Hr. simpl in Hr. lia.
  - exists (rev r), x, y.
    rewrite <- (rev_involutive l), Hr. simpl. by rewrite <- app_assoc.
Qed.

(** * Name extraction *)

Section GetName.

Implicit Types (scopes outer inner : list string) (prefix label : string).

Lemma get_name_loop_no_match rscopes prefix :
  Forall (λ label, startswith label prefix = false) rscopes →
  get_name_loop rscopes prefix = Ok "".
Proof.
  induction 1 as [|label rscopes Hl _ IH]; simpl; [done|].
  by rewrite Hl.
Qed.

Lemma get_name_loop_skip rinner label rest prefix :
  Forall (λ label, startswith label prefix = false) rinner →
  startswith label prefix = true →
  get_name_loop (rinner ++ label :: rest)%list prefix
  = getitem (split_on "." label) (-2).
Proof.
  induction 1 as [|l rinner Hl _ IH]; intros Hm; simpl.
  - by rewrite Hm.
  - rewrite Hl. by apply IH.
Qed.

(** The innermost label that starts with the prefix decides. *)
Lemma get_name_innermost outer label inner prefix :
  startswith label prefix = true →
  Forall (λ label, startswith label prefix = false) inner →
  get_name (outer ++ label :: inner)%list prefix
  = getitem (split_on "." label) (-2).
Proof.
  intros Hm Hin. unfold get_name.
  rewrite rev_app_distr. simpl. rewrite <- app_assoc. simpl.
  apply get_name_loop_skip; [|done].
  by apply Forall_rev.
Qed.

(** A label that starts with a prefix holding a dot has at least two
    dotted segments, so that the index [-2] is in range. *)
Lemma dotted_label_segments label prefix :
  has_char "." prefix = true →
  startswith label prefix = true →
  ∃ segs name last, split_on "." label = (segs ++ [name; last])%list.
Proof.
  intros Hdot Hm. apply penultimate_exists, split_on_length.
  by apply (has_char_prefix "." prefix).
Qed.

Lemma get_name_loop_total rscopes prefix :
  has_char "." prefix = true → ∃ name, get_name_loop rscopes prefix = Ok name.
Proof.
  intros Hdot. induction rscopes as [|label rscopes IH]; simpl; [by eexists|].
  destruct (startswith label prefix) eqn:Hm; [|done].
  destruct (dotted_label_segments label prefix Hdot Hm) as (segs & name & last & ->).
  exists name. apply getitem_penultimate.
Qed.

Lemma get_name_total scopes prefix :
  has_char "." prefix = true → ∃ name, get_name scopes prefix = Ok name.
Proof. intros. by apply get_name_loop_total. Qed.

(** Every list of labels either has no label starting with the prefix or
    splits at its innermost such label. *)
Lemma innermost_match_dec scopes prefix :
  Forall (λ label, startswith label prefix = false) scopes
  ∨ ∃ outer label inner,
      scopes = (outer ++ label :: inner)%list
      ∧ startswith label prefix = true
      ∧ Forall (λ label, startswith label prefix = false) inner.
Proof.
  induction scopes as [|l scopes IH]; [by left|].
  destruct IH as [Hall|(outer & label & inner & -> & Hm & Hin)].
  - destruct (startswith l prefix) eqn:Hl.
    + right. by exists [], l, scopes.
    + left. by constructor.
  - right. by exists (l :: outer), label, inner.
Qed.

End GetName.

(** * The three delegated lookups *)

Section Lookups.

Context (T : Tables).
Implicit Types (scopes : list string) (name : string).

Lemma get_functions_eq scopes :
  ∃ name, get_name scopes "meta.function." = Ok name
    ∧ get_functions T scopes
      = Ok (lookup_result T name
              (default [] (f_func_name_to_completions T !! name))
              (f_allow_word_completions T)).
Proof.
  destruct (get_name_total scopes "meta.function." eq_refl) as [name Hn].
  exists name. split; [done|].
  unfold get_functions, lookup_result. rewrite Hn. simpl.
  by destruct (truthy name && _).
Qed.

Lemma get_property_values_eq scopes :
  ∃ name, get_name scopes "meta.property-value-pair." = Ok name
    ∧ get_property_values T scopes
      = Ok (lookup_result T name
              (default [] (p_name_to_completions T !! name))
              (p_allow_word_completions T)).
Proof.
  destruct (get_name_total scopes "meta.property-value-pair." eq_refl) as [name Hn].
  exists name. split; [done|].
  unfold get_property_values, lookup_result. rewrite Hn. simpl.
  by destruct (truthy name && _).
Qed.

(** The descriptor lookup tests the functions' allow set. *)
Lemma get_descriptors_eq scopes descriptors_for :
  ∃ name, get_name scopes ("meta.descriptor." ++ descriptors_for) = Ok name
    ∧ get_descriptors T scopes descriptors_for
      = Ok (lookup_result T name
              (default []
                 (default ∅ (d_at_rule_to_completions_dict T !! descriptors_for)
                    !! name))
              (f_allow_word_completions T)).
Proof.
  destruct (get_name_total scopes ("meta.descriptor." ++ descriptors_for) eq_refl)
    as [name Hn].
  exists name. split; [done|].
  unfold get_descriptors, lookup_result. rewrite Hn. simpl.
  by destruct (truthy name && _).
Qed.

Lemma lookup_result_completions name base allow :
  completions_of (lookup_result T name base allow) = (base ++ [t_var T])%list.
Proof. unfold lookup_result. by destruct (truthy name && _). Qed.

(** A lookup suppresses word completions unless the name is non-empty and
    in the allow set it tests. *)
Lemma lookup_result_allowed name base allow :
  name ≠ "" → name ∈ allow →
  lookup_result T name base allow = RList (base ++ [t_var T]).
Proof.
  intros Hne Hin. unfold lookup_result.
  rewrite bool_decide_eq_true_2 by done. by destruct name.
Qed.

Lemma lookup_result_suppressed name base allow :
  name = "" ∨ name ∉ allow →
  lookup_result T name base allow
  = RTuple (base ++ [t_var T]) INHIBIT_WORD_COMPLETIONS.
Proof.
  intros [->|Hnin]; unfold lookup_result; [done|].
  rewrite bool_decide_eq_false_2 by done. by rewrite andb_false_r.
Qed.

(** X11: the function lookup and the property-value lookup each test the
    allow set of their own module: the bare list for a non-empty name in
    that set, the list with the suppress flag otherwise. *)
Lemma function_and_property_lookups_test_own_set scopes :
  (∃ name,
     get_name scopes "meta.function." = Ok name
     ∧ let completions :=
         (default [] (f_func_name_to_completions T !! name) ++ [t_var T])%list in
       (name ≠ "" ∧ name ∈ f_allow_word_completions T →
        get_functions T scopes = Ok (RList completions))
       ∧ (name = "" ∨ name ∉ f_allow_word_completions T →
          get_functions T scopes = Ok (RTuple completions INHIBIT_WORD_COMPLETIONS)))
  ∧ (∃ name,
       get_name scopes "meta.property-value-pair." = Ok name
       ∧ let completions :=
           (default [] (p_name_to_completions T !! name) ++ [t_var T])%list in
         (name ≠ "" ∧ name ∈ p_allow_word_completions T →
          get_property_values T scopes = Ok (RList completions))
         ∧ (name = "" ∨ name ∉ p_allow_word_completions T →
            get_property_values T scopes
            = Ok (RTuple completions INHIBIT_WORD_COMPLETIONS))).
Proof.
  split.
  - destruct (get_functions_eq scopes) as (name & Hn & ->).
    exists name. split; [done|]. split.
    + intros [??]. by rewrite lookup_result_allowed.
    + intros ?. by rewrite lookup_result_suppressed.
  - destruct (get_property_values_eq scopes) as (name & Hn & ->).
    exists name. split; [done|]. split.
    + intros [??]. by rewrite lookup_result_allowed.
    + intros ?. by rewrite lookup_result_suppressed.
Qed.

End Lookups.

(** * The at-rule handler *)

Lemma should_offer_view_of (doc : document) (location : Z) :
  should_offer_at_rule_completions (view_of doc) location
  = in_media_or_supports_block (doc location)
    && negb (in_forbidding_scope (doc location)).
Proof.
  unfold should_offer_at_rule_completions, scopes_that_forbid_nested_at_rules,
    in_media_or_supports_block, in_forbidding_scope, forbidding_scopes.
  cbn [match_selector view_of]. eval_selectors.
  rewrite !andb_true_r, !orb_false_r.
  by destruct (Selector.has_prefix "meta.at-rule.media.block.css" (doc location)
               || Selector.has_prefix "meta.at-rule.supports.block.css" (doc location)).
Qed.

Lemma at_rule_kinds_not_nestable T view location scopes :
  nestable_at_rules_distinct T = true →
  at_rule_kinds T view location scopes
  ≠ Ok (RTuple (s_nestable_at_rules T) INHIBIT_WORD_COMPLETIONS).
Proof.
  intros [Hnin Hlast]%andb_true_iff Heq.
  apply bool_decide_eq_true in Hnin, Hlast.
  assert (Hdesc : ∀ family, get_descriptors T scopes family
            ≠ Ok (RTuple (s_nestable_at_rules T) INHIBIT_WORD_COMPLETIONS)).
  { intros family Hg.
    destruct (get_descriptors_eq T scopes family) as (name & _ & Hr).
    rewrite Hr in Hg. unfold lookup_result in Hg.
    destruct (truthy name && _); [done|].
    injection Hg as Hl. apply Hlast. rewrite <- Hl. apply last_snoc. }
  unfold at_rule_kinds in Heq.
  repeat match type of Heq with
         | context [if ?c then _ else _] => destruct c
         end;
    try done; try (eapply Hdesc; exact Heq);
    injection Heq as Hx; apply Hnin; rewrite <- Hx;
    repeat first [apply list_elem_of_here | apply list_elem_of_further].
Qed.

Lemma at_rule_kinds_total T view location scopes :
  ∃ r, at_rule_kinds T view location scopes = Ok r.
Proof.
  unfold at_rule_kinds.
  repeat match goal with
         | |- context [if ?c then _ else _] => destruct c
         end;
    try (by eexists);
    match goal with
    | |- ∃ r, get_descriptors _ _ ?family = Ok r =>
        destruct (get_descriptors_eq T scopes family) as (? & _ & ->); by eexists
    end.
Qed.

Lemma handle_completions_inside_at_rules_total T view location :
  ∃ r, handle_completions_inside_at_rules T view location = Ok r.
Proof.
  unfold handle_completions_inside_at_rules.
  destruct (should_offer_at_rule_completions view location); [by eexists|].
  apply at_rule_kinds_total.
Qed.

(** * The view of a document prints and reads back its stacks *)

Lemma append_cons a s t : String a s ++ t = String a (s ++ t).
Proof. reflexivity. Qed.

Lemma append_nil_r s : s ++ "" = s.
Proof. induction s as [|a s IH]; [done|]. by rewrite append_cons, IH. Qed.

Lemma append_assoc s t u : (s ++ t) ++ u = s ++ (t ++ u).
Proof. induction s as [|a s IH]; [done|]. by rewrite !append_cons, IH. Qed.

(** Reading a word free of white space, up to the space that ends it. *)
Lemma split_ws_go_word w cur rest :
  (∀ a, has_char a w = true → isspace a = false) →
  (w = "" → cur ≠ None) →
  split_ws_go cur (w ++ String " " rest)
  = word_so_far cur w :: split_ws_go None rest.
Proof.
  revert cur. induction w as [|a w IH]; intros cur Hw Hcur.
  - destruct cur as [c|]; [|by destruct Hcur].
    simpl. by rewrite append_nil_r.
  - rewrite append_cons. simpl.
    rewrite (Hw a) by (simpl; by rewrite Ascii.eqb_refl).
    rewrite IH.
    + f_equal. destruct cur as [c|]; simpl; [|done].
      by rewrite append_assoc.
    + intros b Hb. apply Hw. simpl. rewrite Hb. apply orb_true_r.
    + done.
Qed.

Lemma split_ws_join_sp (stack : list string) :
  Forall label_ok stack → split_ws (join_sp stack ++ " ") = stack.
Proof.
  unfold split_ws.
  induction 1 as [|label stack [Hne Hws] Hrest IH]; [done|].
  destruct stack as [|label' stack].
  - simpl join_sp. by rewrite split_ws_go_word.
  - change (join_sp (label :: label' :: stack))
      with (label ++ " " ++ join_sp (label' :: stack)).
    rewrite append_assoc.
    change ((" " ++ join_sp (label' :: stack)) ++ " ")
      with (String " " (join_sp (label' :: stack) ++ " ")).
    rewrite split_ws_go_word by done.
    simpl word_so_far. f_equal. exact IH.
Qed.

(** X2: [get_current_scopes] reads back the stack the view prints, when
    its labels are non-empty and free of white space. *)
Lemma get_current_scopes_view_of (doc : document) (location : Z) :
  Forall label_ok (doc location) →
  get_current_scopes (view_of doc) location = doc location.
Proof. apply split_ws_join_sp. Qed.

(** * The selector dispatch *)


(** * The properties the specification states *)

(** C1, at the input where the code departs from it: the descriptor lookup
    for the value of the [fallback] descriptor of [@counter-style]. The
    name [fallback] is extracted, it is non-empty and it is in the
    descriptors' own allow set, so that the claim asks for the bare
    candidate list; the lookup tests the functions' allow set instead and
    returns the list with the suppress flag. *)
Theorem get_descriptors_tests_function_set :
  get_name fallback_descriptor_scopes "meta.descriptor.counter-style" = Ok "fallback"
  ∧ bool_decide ("fallback" ∈ sample_d_allow_word_completions) = true
  ∧ bool_decide ("fallback" ∈ f_allow_word_completions sample_tables) = false
  ∧ get_descriptors sample_tables fallback_descriptor_scopes "counter-style"
    = Ok (RTuple [["decimal"]; sample_var] INHIBIT_WORD_COMPLETIONS).
Proof. repeat split; vm_compute; reflexivity. Qed.

(** C2 as stated fails: with the prefix ["ab"] and the cursor at 5, the
    start of the prefix, position 3, lies in a comment, the cursor does
    not, and the classifier offers the property names with word
    completions suppressed. *)
Lemma comment_at_prefix_start_not_rejected :
  match_selector (view_of comment_at_3_doc) (5 - len_str "ab") "comment.block.css" = true
  ∧ match_selector (view_of comment_at_3_doc) 5 "comment.block.css" = false
  ∧ on_query_completions sample_tables (view_of comment_at_3_doc) "ab" [5]
    = Ok (RTuple (p_names sample_tables) INHIBIT_WORD_COMPLETIONS)
  ∧ on_query_completions sample_tables (view_of comment_at_3_doc) "ab" [5]
    ≠ Ok (RList []).
Proof. repeat split; vm_compute; [reflexivity..|discriminate]. Qed.

(** C2, amended: with a single cursor whose own position lies inside a
    comment region, the classifier returns an empty completion list, word
    completions not suppressed, whatever the prefix. *)
Theorem comment_at_cursor_empty (T : Tables) (view : View) (prefix : string)
    (location : Z) :
  match_selector view location "comment.block.css" = true →
  on_query_completions T view prefix [location] = Ok (RList []).
Proof. intros Hc. unfold on_query_completions. simpl. by rewrite Hc. Qed.

Lemma comment_at_cursor_empty_witness :
  match_selector (view_of comment_at_3_doc) 3 "comment.block.css" = true
  ∧ on_query_completions sample_tables (view_of comment_at_3_doc) "ab" [3]
    = Ok (RList []).
Proof.
  split; [reflexivity|].
  apply (comment_at_cursor_empty sample_tables (view_of comment_at_3_doc) "ab" 3).
  reflexivity.
Defined.

(** C3: [get_name] scans the labels from the innermost (last) to the
    outermost (first). For a dotted prefix: when no label starts with the
    prefix it returns the empty string; otherwise it returns, for the
    innermost label that starts with the prefix, whatever labels come before
    it, the dotted segment just before that label's final segment. One of
    the two cases always applies. *)
Theorem get_name_spec (scopes : list string) (prefix : string) :
  has_char "." prefix = true →
  (Forall (λ label, startswith label prefix = false) scopes →
     get_name scopes prefix = Ok "")
  ∧ (∀ outer label inner,
       scopes = (outer ++ label :: inner)%list →
       startswith label prefix = true →
       Forall (λ label, startswith label prefix = false) inner →
       ∃ segs name last,
         split_on "." label = (segs ++ [name; last])%list
         ∧ get_name scopes prefix = Ok name)
  ∧ (Forall (λ label, startswith label prefix = false) scopes
     ∨ ∃ outer label inner,
         scopes = (outer ++ label :: inner)%list
         ∧ startswith label prefix = true
         ∧ Forall (λ label, startswith label prefix = false) inner).
Proof.
  intros Hdot. split; [|split].
  - intros Hnone. apply get_name_loop_no_match. by apply Forall_rev.
  - intros outer label inner -> Hm Hin.
    destruct (dotted_label_segments label prefix Hdot Hm) as (segs & name & last & Hs).
    exists segs, name, last. split; [done|].
    rewrite get_name_innermost by done.
    rewrite Hs. apply getitem_penultimate.
  - apply innermost_match_dec.
Qed.

Lemma get_name_spec_witness :
  has_char "." "a.b" = true
  ∧ ∃ segs name last,
      split_on "." "a.b.x.css" = (segs ++ [name; last])%list
      ∧ get_name ["a.b.css"; "a.b.x.css"] "a.b" = Ok name.
Proof.
  split; [reflexivity|].
  exact (proj1 (proj2 (get_name_spec ["a.b.css"; "a.b.x.css"] "a.b" eq_refl))
           ["a.b.css"] "a.b.x.css" [] eq_refl eq_refl (List.Forall_nil _)).
Defined.

(** C4: each of the three delegated lookups returns a result whose
    candidate list is the list the static table holds for the extracted
    name, or the empty list when the table holds none, followed by exactly
    one more item, the [var()] completion. *)
Theorem lookups_append_var (T : Tables) (scopes : list string) (descriptors_for : string) :
  (∃ name r,
     get_name scopes "meta.function." = Ok name
     ∧ get_functions T scopes = Ok r
     ∧ completions_of r
       = (default [] (f_func_name_to_completions T !! name) ++ [t_var T])%list)
  ∧ (∃ name r,
       get_name scopes ("meta.descriptor." ++ descriptors_for) = Ok name
       ∧ get_descriptors T scopes descriptors_for = Ok r
       ∧ completions_of r
         = (default []
              (default ∅ (d_at_rule_to_completions_dict T !! descriptors_for) !! name)
            ++ [t_var T])%list)
  ∧ (∃ name r,
       get_name scopes "meta.property-value-pair." = Ok name
       ∧ get_property_values T scopes = Ok r
       ∧ completions_of r
         = (default [] (p_name_to_completions T !! name) ++ [t_var T])%list).
Proof.
  split; [|split].
  - destruct (get_functions_eq T scopes) as (name & Hn & Hr).
    eexists name, _. repeat split; [done..|]. apply lookup_result_completions.
  - destruct (get_descriptors_eq T scopes descriptors_for) as (name & Hn & Hr).
    eexists name, _. repeat split; [done..|]. apply lookup_result_completions.
  - destruct (get_property_values_eq T scopes) as (name & Hn & Hr).
    eexists name, _. repeat split; [done..|]. apply lookup_result_completions.
Qed.

(** C5: for the view of a document, the at-rule handler returns the nested
    at-rule keyword list with word completions suppressed whenever the
    stack at the position has an [@media] or [@supports] block label and
    none of the eight forbidding labels; when the nested list differs from
    the handler's other answers, it is returned only then. With a
    forbidding label present the handler goes on to its other branches, and
    it can end with no result, as it does for a property list inside an
    [@media] block. *)
Theorem nested_at_rules_exactly_when (T : Tables) (doc : document) (location : Z) :
  let view := view_of doc in
  let stack := doc location in
  let nested := Ok (RTuple (s_nestable_at_rules T) INHIBIT_WORD_COMPLETIONS) in
  (in_media_or_supports_block stack = true →
   in_forbidding_scope stack = false →
   handle_completions_inside_at_rules T view location = nested)
  ∧ (nestable_at_rules_distinct T = true →
     handle_completions_inside_at_rules T view location = nested →
     in_media_or_supports_block stack = true ∧ in_forbidding_scope stack = false)
  ∧ (in_forbidding_scope stack = true →
     handle_completions_inside_at_rules T view location
     = at_rule_kinds T view location (get_current_scopes view location))
  ∧ (in_media_or_supports_block (media_property_list_doc location) = true
     ∧ in_forbidding_scope (media_property_list_doc location) = true
     ∧ handle_completions_inside_at_rules T (view_of media_property_list_doc) location
       = Ok RNone).
Proof.
  cbn zeta. unfold handle_completions_inside_at_rules.
  rewrite !should_offer_view_of.
  split; [|split; [|split]].
  - by intros -> ->.
  - intros Hd. destruct (in_media_or_supports_block (doc location));
      destruct (in_forbidding_scope (doc location)); simpl; try done;
      intros Hk; by apply at_rule_kinds_not_nestable in Hk.
  - intros ->. by rewrite andb_false_r.
  - repeat split; vm_compute; reflexivity.
Qed.

Lemma nested_at_rules_exactly_when_witness :
  handle_completions_inside_at_rules sample_tables (view_of media_block_doc) 7
  = Ok (RTuple (s_nestable_at_rules sample_tables) INHIBIT_WORD_COMPLETIONS)
  ∧ in_media_or_supports_block (media_block_doc 7) = true
  ∧ in_forbidding_scope (media_block_doc 7) = false
  ∧ handle_completions_inside_at_rules sample_tables (view_of media_property_list_doc) 7
    = at_rule_kinds sample_tables (view_of media_property_list_doc) 7
        (get_current_scopes (view_of media_property_list_doc) 7).
Proof.
  pose proof (nested_at_rules_exactly_when sample_tables media_block_doc 7) as H.
  pose proof (nested_at_rules_exactly_when sample_tables media_property_list_doc 7) as H'.
  cbn zeta in H, H'.
  destruct H as (Hif & Honly & _). destruct H' as (_ & _ & Hforbid & _).
  split; [exact (Hif eq_refl eq_refl)|].
  split; [exact (proj1 (Honly eq_refl (Hif eq_refl eq_refl)))|].
  split; [exact (proj2 (Honly eq_refl (Hif eq_refl eq_refl)))|].
  exact (Hforbid eq_refl).
Defined.

(** C6: with more than one cursor position the classifier returns the
    reject outcome, an empty list with the suppress flag. The answer is the
    same for every view: no query of the view takes part in it. *)
Theorem multiple_cursors_rejected (T : Tables) (view : View) (prefix : string)
    (locations : list Z) :
  (1 < List.length locations)%nat →
  on_query_completions T view prefix locations
  = Ok (RTuple [] INHIBIT_WORD_COMPLETIONS).
Proof.
  intros Hl. unfold on_query_completions. by rewrite len_gt_1.
Qed.

Lemma multiple_cursors_rejected_witness :
  (1 < List.length [4; 9])%nat
  ∧ on_query_completions sample_tables (view_of function_in_value_doc) "co" [4; 9]
    = Ok (RTuple [] INHIBIT_WORD_COMPLETIONS).
Proof.
  split; [simpl; lia|].
  apply (multiple_cursors_rejected sample_tables (view_of function_in_value_doc) "co" [4; 9]).
  simpl; lia.
Defined.




(** C8 as stated fails: inside the arguments of a function in a property
    value, the function predicate and the property-value predicate both
    hold, and the two branches answer differently. *)
Lemma branch_predicates_overlap :
  match_selector (view_of function_in_value_doc) 10 "comment.block.css" = false
  ∧ branch_predicates (view_of function_in_value_doc) (10 - len_str "")
    = [true; false; false; false; true; false]
  ∧ ¬ at_most_one (branch_predicates (view_of function_in_value_doc) (10 - len_str ""))
  ∧ get_functions sample_tables
      (get_current_scopes (view_of function_in_value_doc) (10 - len_str ""))
    ≠ get_property_values sample_tables
        (get_current_scopes (view_of function_in_value_doc) (10 - len_str "")).
Proof.
  repeat split; try (vm_compute; reflexivity).
  - unfold at_most_one. vm_compute. lia.
  - vm_compute. discriminate.
Qed.

(** C8, amended: for a single cursor outside a comment, the result comes
    from exactly one branch, the first in the fixed order whose predicate
    holds, and there is no result when none holds. The predicates may
    overlap; for the view of a document, the at-rule introducer and the
    inside-at-rule predicates exclude each other, and so do the
    property-name and the property-value predicates. *)
Theorem cascade_first_match (T : Tables) (view : View) (prefix : string)
    (location : Z) :
  match_selector view location "comment.block.css" = false →
  on_query_completions T view prefix [location]
  = first_match (branch_predicates view (location - len_str prefix))
      (branch_handlers T view (location - len_str prefix))
  ∧ ∀ doc start,
      match branch_predicates (view_of doc) start with
      | [_; at_rule_introducer; inside_at_rule; property_name; property_value; _] =>
          at_rule_introducer && inside_at_rule = false
          ∧ property_name && property_value = false
      | _ => False
      end.
Proof.
  intros Hc. split.
  - unfold on_query_completions. simpl. rewrite Hc. reflexivity.
  - intros doc start. unfold branch_predicates, property_name_scope.
    cbn [match_selector view_of]. eval_selectors.
    rewrite !andb_true_r, !orb_false_r.
    destruct (Selector.has_prefix "source.css" (doc start));
      destruct (Selector.has_prefix "meta.at-rule" (doc start));
      destruct (Selector.has_prefix "meta.property-value-pair" (doc start));
      destruct (Selector.has_prefix "meta.property-list.css" (doc start));
      destruct (Selector.has_prefix "meta.page-margin-box.css" (doc start));
      destruct (Selector.has_prefix "punctuation.definition.keyword.css"
                  (doc (start - 1)));
      simpl; split; reflexivity.
Qed.

Lemma cascade_first_match_witness :
  match_selector (view_of function_in_value_doc) 10 "comment.block.css" = false
  ∧ on_query_completions sample_tables (view_of function_in_value_doc) "" [10]
    = first_match (branch_predicates (view_of function_in_value_doc) (10 - len_str ""))
        (branch_handlers sample_tables (view_of function_in_value_doc) (10 - len_str "")).
Proof.
  split; [reflexivity|].
  exact (proj1 (cascade_first_match sample_tables (view_of function_in_value_doc) "" 10
                  eq_refl)).
Defined.

(** C9: with at least one cursor position, and whatever the view answers,
    the classifier returns a result and raises nothing; when none of the
    six branch predicates holds for a single cursor outside a comment, the
    outcome is no result; and name extraction finds the index [-2] in range
    for the prefix of each of the three lookups. *)
Theorem on_query_completions_total (T : Tables) (view : View) (prefix : string)
    (locations : list Z) :
  locations ≠ [] →
  (∃ r, on_query_completions T view prefix locations = Ok r)
  ∧ (∀ location,
       locations = [location] →
       match_selector view location "comment.block.css" = false →
       branch_predicates view (location - len_str prefix)
       = [false; false; false; false; false; false] →
       on_query_completions T view prefix locations = Ok RNone)
  ∧ (∀ scopes descriptors_for,
       (∃ name, get_name scopes "meta.function." = Ok name)
       ∧ (∃ name, get_name scopes ("meta.descriptor." ++ descriptors_for) = Ok name)
       ∧ (∃ name, get_name scopes "meta.property-value-pair." = Ok name)).
Proof.
  intros Hne. split; [|split].
  - destruct locations as [|location [|location' locations]]; [done| |].
    2: { unfold on_query_completions. rewrite len_gt_1 by (simpl; lia). by eexists. }
    unfold on_query_completions. simpl.
    destruct (match_selector view location "comment.block.css"); [by eexists|].
    set (start := location - len_str prefix).
    destruct (match_selector view start "source.css meta.function").
    { destruct (get_functions_eq T (get_current_scopes view start)) as (? & _ & ->).
      by eexists. }
    destruct (_ && _); [by eexists|].
    destruct (match_selector view start "source.css meta.at-rule").
    { apply handle_completions_inside_at_rules_total. }
    destruct (property_name_scope view start); [by eexists|].
    destruct (match_selector view start "source.css meta.property-value-pair").
    { destruct (get_property_values_eq T (get_current_scopes view start)) as (? & _ & ->).
      by eexists. }
    destruct (match_selector view start "meta.selector.css"); by eexists.
  - intros location -> Hc Hb. unfold branch_predicates in Hb.
    injection Hb as H1 H2 H3 H4 H5 H6.
    unfold on_query_completions. simpl. by rewrite Hc, H1, H2, H3, H4, H5, H6.
  - intros scopes descriptors_for.
    repeat split; by apply get_name_total.
Qed.

Lemma on_query_completions_total_witness :
  [5] ≠ @nil Z
  ∧ ∃ r, on_query_completions sample_tables (view_of comment_at_3_doc) "ab" [5] = Ok r.
Proof.
  split; [discriminate|].
  apply (on_query_completions_total sample_tables (view_of comment_at_3_doc) "ab" [5]).
  discriminate.
Defined.

(** C10: two invocations with the same view, the same cursor positions and
    prefixes of equal length return the same result; the classifier reads
    nothing of the prefix but its length. *)
Theorem prefix_only_through_length (T : Tables) (view : View)
    (prefix prefix' : string) (locations : list Z) :
  String.length prefix = String.length prefix' →
  on_query_completions T view prefix locations
  = on_query_completions T view prefix' locations.
Proof.
  intros Hlen. unfold on_query_completions, len_str. by rewrite Hlen.
Qed.

Lemma prefix_only_through_length_witness :
  String.length "col" = String.length "bac"
  ∧ on_query_completions sample_tables (view_of function_in_value_doc) "col" [10]
    = on_query_completions sample_tables (view_of function_in_value_doc) "bac" [10].
Proof.
  split; [reflexivity|].
  apply (prefix_only_through_length sample_tables (view_of function_in_value_doc)
           "col" "bac" [10]).
  reflexivity.
Defined.

(** * Further properties of the helpers *)

(** ** Splitting *)

Lemma has_char_app c s t : has_char c (s ++ t) = has_char c s || has_char c t.
Proof.
  induction s as [|a s IH]; [done|].
  rewrite append_cons. simpl. by rewrite IH, orb_assoc.
Qed.

Lemma split_on_no_sep sep s : has_char sep s = false → split_on sep s = [s].
Proof.
  induction s as [|a s IH]; simpl; [done|].
  destruct (Ascii.eqb a sep); simpl; [done|].
  intros Hs. by rewrite IH.
Qed.

Lemma split_on_segments sep s :
  Forall (λ seg, has_char sep seg = false) (split_on sep s).
Proof.
  induction s as [|a s IH]; simpl; [by repeat constructor|].
  destruct (Ascii.eqb a sep) eqn:Ha; [by constructor|].
  destruct (split_on sep s) as [|seg segs]; [by repeat constructor; simpl; rewrite Ha|].
  inversion IH as [|?? Hseg Hsegs]; subst.
  constructor; [|done]. simpl. by rewrite Ha.
Qed.

(** Splitting at a separator splits the list of segments. *)
Lemma split_on_app sep s t :
  split_on sep (s ++ String sep t) = (split_on sep s ++ split_on sep t)%list.
Proof.
  induction s as [|a s IH].
  - simpl. change ("" ++ String sep t) with (String sep t). simpl.
    by rewrite Ascii.eqb_refl.
  - rewrite append_cons. simpl. rewrite IH.
    destruct (Ascii.eqb a sep); [done|].
    pose proof (split_on_nonempty sep s).
    by destruct (split_on sep s).
Qed.

(** The segments of a label built from a stem, a name and a suffix. *)
Lemma split_on_label stem name suffix :
  has_char "." name = false → has_char "." suffix = false →
  split_on "." (stem ++ String "." (name ++ String "." suffix))
  = (split_on "." stem ++ [name; suffix])%list.
Proof.
  intros Hn Hs. rewrite !split_on_app.
  by rewrite (split_on_no_sep _ name), (split_on_no_sep _ suffix).
Qed.

Lemma getitem_In {A} (l : list A) i x : getitem l i = Ok x → In x l.
Proof.
  unfold getitem. destruct (_ && _); [|done].
  destruct (nth_error l _) eqn:Hn; [|done].
  intros [= ->]. by eapply nth_error_In.
Qed.

Lemma getitem_singleton {A} (x : A) : getitem [x] (-2) = Raise IndexError.
Proof. reflexivity. Qed.

Lemma prefix_app s t : String.prefix s (s ++ t) = true.
Proof.
  induction s as [|a s IH]; [by destruct t|].
  rewrite append_cons. simpl. by destruct (ascii_dec a a).
Qed.

(** Words read by [split_ws_go] are not empty and hold no white space. *)
Lemma label_ok_snoc w a : isspace a = false →
  (w = "" ∨ label_ok w) → label_ok (w ++ String a "").
Proof.
  intros Ha Hw. split.
  - by destruct w.
  - intros b. rewrite has_char_app. simpl. rewrite orb_false_r.
    intros [Hb|Hb]%orb_true_iff.
    + destruct Hw as [->|[_ Hw]]; [done|by apply Hw].
    + apply Ascii.eqb_eq in Hb. by subst.
Qed.

Lemma split_ws_go_labels_ok s cur :
  (∀ w, cur = Some w → label_ok w) → Forall label_ok (split_ws_go cur s).
Proof.
  revert cur. induction s as [|a s IH]; intros cur Hcur; simpl.
  - destruct cur; [|done]. constructor; [by apply Hcur|done].
  - destruct (isspace a) eqn:Ha.
    + destruct cur.
      * constructor; [by apply Hcur|]. by apply IH.
      * by apply IH.
    + apply IH. intros w [= <-]. destruct cur as [c|].
      * apply label_ok_snoc; [done|]. right. by apply Hcur.
      * apply (label_ok_snoc "" a); [done|by left].
Qed.

(** ** The scope labels of a position *)

(** X1: whatever string the view returns for a position, every label
    [get_current_scopes] makes of it is non-empty and free of white
    space. *)
Theorem get_current_scopes_labels_ok (view : View) (location : Z) :
  Forall label_ok (get_current_scopes view location).
Proof.
  unfold get_current_scopes, split_ws.
  apply split_ws_go_labels_ok. intros w Hw. discriminate Hw.
Qed.

Lemma label_okb_ok label : label_okb label = true → label_ok label.
Proof.
  intros [Hne Hsp]%andb_true_iff. split; [by destruct label|].
  apply negb_true_iff in Hsp. intros a.
  induction label as [|b label IH]; simpl in *; [done|].
  apply orb_false_iff in Hsp as [Hb Hsp].
  intros [->%Ascii.eqb_eq|Ha]%orb_true_iff; [done|].
  destruct label; [done|]. by apply IH.
Qed.

Lemma get_current_scopes_view_of_witness :
  Forall label_ok (function_in_value_doc 10)
  ∧ get_current_scopes (view_of function_in_value_doc) 10 = function_in_value_doc 10.
Proof.
  assert (Hok : Forall label_ok (function_in_value_doc 10)).
  { unfold function_in_value_doc.
    repeat (apply List.Forall_cons; [by apply label_okb_ok|]).
    apply List.Forall_nil. }
  split; [exact Hok|].
  exact (get_current_scopes_view_of function_in_value_doc 10 Hok).
Defined.

(** ** Name extraction: errors, composition, round trip *)

Section GetNameMore.

Implicit Types (scopes outer inner : list string) (prefix label name : string).

Lemma get_name_loop_app rinner router prefix :
  get_name_loop (rinner ++ router)%list prefix
  = if existsb (λ label, startswith label prefix) rinner
    then get_name_loop rinner prefix
    else get_name_loop router prefix.
Proof.
  induction rinner as [|label rinner IH]; simpl; [done|].
  by destruct (startswith label prefix).
Qed.

Lemma existsb_rev_eq {A} (f : A → bool) (l : list A) :
  existsb f (rev l) = existsb f l.
Proof.
  induction l as [|x l IH]; simpl; [done|].
  rewrite existsb_app, IH. simpl. rewrite orb_false_r. apply orb_comm.
Qed.

Lemma get_name_loop_filter rscopes prefix :
  get_name_loop (List.filter (λ label, startswith label prefix) rscopes) prefix
  = get_name_loop rscopes prefix.
Proof.
  induction rscopes as [|label rscopes IH]; simpl; [done|].
  destruct (startswith label prefix) eqn:Hl; simpl; [|done].
  by rewrite Hl.
Qed.

Lemma get_name_loop_dot_free rscopes prefix name :
  get_name_loop rscopes prefix = Ok name → has_char "." name = false.
Proof.
  induction rscopes as [|label rscopes IH]; simpl.
  - by intros [= <-].
  - destruct (startswith label prefix); [|done].
    intros Hg%getitem_In.
    pose proof (split_on_segments "." label) as Hsegs.
    rewrite List.Forall_forall in Hsegs. by apply Hsegs.
Qed.

(** X3: [get_name] raises exactly when the innermost label that starts
    with the prefix holds no dot; then, and only then, the index [-2] is
    out of range. *)
Theorem get_name_raises_iff scopes prefix :
  get_name scopes prefix = Raise IndexError
  ↔ ∃ outer label inner,
      scopes = (outer ++ label :: inner)%list
      ∧ startswith label prefix = true
      ∧ Forall (λ label, startswith label prefix = false) inner
      ∧ has_char "." label = false.
Proof.
  split.
  - intros Hraise.
    destruct (innermost_match_dec scopes prefix)
      as [Hnone|(outer & label & inner & -> & Hm & Hin)].
    + unfold get_name in Hraise.
      rewrite get_name_loop_no_match in Hraise by (by apply Forall_rev). done.
    + exists outer, label, inner. repeat split; [done..|].
      rewrite get_name_innermost in Hraise by done.
      destruct (has_char "." label) eqn:Hdot; [|done].
      destruct (penultimate_exists (split_on "." label))
        as (segs & x & y & Hs); [by apply split_on_length|].
      rewrite Hs, getitem_penultimate in Hraise. done.
  - intros (outer & label & inner & -> & Hm & Hin & Hdot).
    rewrite get_name_innermost by done.
    rewrite split_on_no_sep by done. apply getitem_singleton.
Qed.

(** X4: on a stack made of outer labels followed by inner labels, [get_name]
    answers from the inner labels alone as soon as one of them starts with
    the prefix, and from the outer labels alone otherwise. *)
Theorem get_name_app outer inner prefix :
  get_name (outer ++ inner)%list prefix
  = if existsb (λ label, startswith label prefix) inner
    then get_name inner prefix
    else get_name outer prefix.
Proof.
  unfold get_name. rewrite rev_app_distr, get_name_loop_app.
  by rewrite existsb_rev_eq.
Qed.

(** X5: a name [get_name] returns holds no dot. *)
Theorem get_name_dot_free scopes prefix name :
  get_name scopes prefix = Ok name → has_char "." name = false.
Proof. unfold get_name. intros Hg. by eapply get_name_loop_dot_free. Qed.

(** X6: a label written as stem, dot, name, dot, suffix, with no dot in the
    name or in the suffix, gives back its name, for every prefix the label
    starts with, when no label further in starts with the prefix. *)
Theorem get_name_of_label outer inner stem name suffix prefix :
  has_char "." name = false →
  has_char "." suffix = false →
  startswith (stem ++ String "." (name ++ String "." suffix)) prefix = true →
  Forall (λ label, startswith label prefix = false) inner →
  get_name (outer ++ (stem ++ String "." (name ++ String "." suffix))%string
                     :: inner)%list
    prefix
  = Ok name.
Proof.
  intros Hn Hs Hm Hin.
  rewrite get_name_innermost by done.
  rewrite split_on_label by done.
  apply getitem_penultimate.
Qed.

(** X7: the labels that do not start with the prefix play no part:
    dropping them from the stack leaves the answer of [get_name], or its
    exception, unchanged. *)
Theorem get_name_filter scopes prefix :
  get_name (List.filter (λ label, startswith label prefix) scopes) prefix
  = get_name scopes prefix.
Proof.
  unfold get_name. rewrite <- filter_rev. apply get_name_loop_filter.
Qed.

End GetNameMore.

Lemma get_name_dot_free_witness :
  get_name ["source.css"; "meta.function.foo.css"] "meta.function." = Ok "foo"
  ∧ has_char "." "foo" = false.
Proof.
  split; [reflexivity|].
  exact (get_name_dot_free ["source.css"; "meta.function.foo.css"] "meta.function."
           "foo" eq_refl).
Defined.

Lemma get_name_of_label_witness :
  get_name ["source.css"; "meta.descriptor.font-face.src.css"; "string.quoted.css"]
    "meta.descriptor.font-face"
  = Ok "src".
Proof.
  apply (get_name_of_label ["source.css"] ["string.quoted.css"]
           "meta.descriptor.font-face" "src" "css" "meta.descriptor.font-face");
    [reflexivity..|].
  repeat constructor.
Defined.

(** ** What the handlers return *)

Section Handlers.

Context (T : Tables).

Lemma lookup_result_flags name base allow l flags :
  lookup_result T name base allow = RTuple l flags →
  flags = INHIBIT_WORD_COMPLETIONS.
Proof. unfold lookup_result. destruct (truthy name && _); congruence. Qed.

Lemma lookup_result_not_none name base allow :
  lookup_result T name base allow ≠ RNone.
Proof. unfold lookup_result. by destruct (truthy name && _). Qed.

Lemma get_descriptors_not_none scopes family :
  get_descriptors T scopes family ≠ Ok RNone.
Proof.
  destruct (get_descriptors_eq T scopes family) as (name & _ & ->).
  intros [= H]. by apply lookup_result_not_none in H.
Qed.

Lemma get_descriptors_flags scopes family l flags :
  get_descriptors T scopes family = Ok (RTuple l flags) →
  flags = INHIBIT_WORD_COMPLETIONS.
Proof.
  destruct (get_descriptors_eq T scopes family) as (name & _ & ->).
  intros [= H]. by apply lookup_result_flags in H.
Qed.

Lemma at_rule_kinds_flags view location scopes l flags :
  at_rule_kinds T view location scopes = Ok (RTuple l flags) →
  flags = INHIBIT_WORD_COMPLETIONS.
Proof.
  unfold at_rule_kinds.
  repeat match goal with
         | |- context [if ?c then _ else _] => destruct c
         end;
    try (by intros [= _ <-]); try done; apply get_descriptors_flags.
Qed.

(** X8: whenever the classifier returns a list together with flags, the
    flags are [INHIBIT_WORD_COMPLETIONS] and nothing else, on every path. *)
Theorem on_query_completions_flags (view : View) (prefix : string)
    (locations : list Z) (l : list completion) (flags : Z) :
  on_query_completions T view prefix locations = Ok (RTuple l flags) →
  flags = INHIBIT_WORD_COMPLETIONS.
Proof.
  unfold on_query_completions.
  destruct (len locations >? 1); [by intros [= _ <-]|].
  destruct (getitem locations 0) as [location|]; simpl; [|done].
  destruct (match_selector view location "comment.block.css"); [done|].
  set (start := location - len_str prefix).
  destruct (match_selector view start "source.css meta.function").
  { destruct (get_functions_eq T (get_current_scopes view start)) as (? & _ & ->).
    intros [= H]. by apply lookup_result_flags in H. }
  destruct (_ && _); [by intros [= _ <-]|].
  destruct (match_selector view start "source.css meta.at-rule").
  { unfold handle_completions_inside_at_rules.
    destruct (should_offer_at_rule_completions view start); [by intros [= _ <-]|].
    apply at_rule_kinds_flags. }
  destruct (property_name_scope view start); [by intros [= _ <-]|].
  destruct (match_selector view start "source.css meta.property-value-pair").
  { destruct (get_property_values_eq T (get_current_scopes view start)) as (? & _ & ->).
    intros [= H]. by apply lookup_result_flags in H. }
  destruct (match_selector view start "meta.selector.css"); [|done].
  unfold handle_selector_completions.
  repeat match goal with
         | |- context [if ?c then _ else _] => destruct c
         end; try done; by intros [= _ <-].
Qed.

(** X9: the at-rule handler ends with no result exactly when it does not
    offer the nested at-rules and none of its nine at-rule kind tests
    matches; a recognised kind always gets a list. *)
Theorem handle_completions_inside_at_rules_none_iff (view : View) (location : Z) :
  handle_completions_inside_at_rules T view location = Ok RNone
  ↔ should_offer_at_rule_completions view location = false
    ∧ at_rule_kind_recognized view location = false.
Proof.
  unfold handle_completions_inside_at_rules, at_rule_kinds, at_rule_kind_recognized.
  destruct (should_offer_at_rule_completions view location).
  { split; [done|by intros [? _]]. }
  repeat match goal with
         | |- context [if match_selector ?v ?l ?s then _ else _] =>
             destruct (match_selector v l s)
         end;
    simpl; (split; [|by intros [_ ?]]); try done;
    intros Hd; by apply get_descriptors_not_none in Hd.
Qed.

End Handlers.

Lemma on_query_completions_flags_witness :
  on_query_completions sample_tables (view_of function_in_value_doc) "" [10]
  = Ok (RTuple [["<number>"]; sample_var] INHIBIT_WORD_COMPLETIONS)
  ∧ INHIBIT_WORD_COMPLETIONS = 8.
Proof.
  split; [reflexivity|].
  symmetry.
  exact (on_query_completions_flags sample_tables (view_of function_in_value_doc) ""
           [10] [["<number>"]; sample_var] 8 eq_refl).
Defined.

(** ** From a document to its completions *)

Lemma prefix_trans p q s :
  String.prefix p q = true → String.prefix q s = true → String.prefix p s = true.
Proof.
  revert q s. induction p as [|a p IH]; intros q s; [by destruct s|].
  destruct q as [|b q]; [done|]. destruct s as [|c s]; [done|]. simpl.
  destruct (ascii_dec a b) as [->|]; [|done].
  destruct (ascii_dec b c) as [->|]; [|done].
  apply IH.
Qed.

(** Two prefixes of one string: one is a prefix of the other. *)
Lemma prefix_comparable p q s :
  String.prefix p s = true → String.prefix q s = true →
  String.prefix p q = true ∨ String.prefix q p = true.
Proof.
  revert q s. induction p as [|a p IH]; intros q s.
  - left. by destruct q.
  - destruct q as [|b q]; [by right|].
    destruct s as [|c s]; [done|]. simpl.
    destruct (ascii_dec a c) as [->|]; [|done].
    destruct (ascii_dec b c) as [->|]; [|done].
    destruct (ascii_dec c c); [|done]. apply IH.
Qed.

Lemma has_prefix_weaken p q stack :
  String.prefix p q = true →
  Selector.has_prefix q stack = true → Selector.has_prefix p stack = true.
Proof.
  unfold Selector.has_prefix. rewrite !existsb_exists.
  intros Hpq (label & Hin & Hq). exists label. split; [done|].
  by apply (prefix_trans p q).
Qed.

(** When every at-rule label of the stack is that of one at-rule [kind],
    no label starts with the scope of another at-rule. *)
Lemma has_prefix_other_at_rule kind p stack :
  Forall (λ label, startswith label "meta.at-rule" = true →
                   startswith label kind = true) stack →
  String.prefix "meta.at-rule" p = true →
  String.prefix p kind = false →
  String.prefix kind p = false →
  Selector.has_prefix p stack = false.
Proof.
  intros Honly Hat Hpk Hkp.
  destruct (Selector.has_prefix p stack) eqn:Hp; [|done].
  unfold Selector.has_prefix in Hp. apply existsb_exists in Hp as (label & Hin & Hl).
  rewrite List.Forall_forall in Honly.
  specialize (Honly label Hin (prefix_trans _ _ _ Hat Hl)).
  destruct (prefix_comparable p kind label Hl Honly); congruence.
Qed.

Section EndToEnd.

Context (T : Tables).

(** X10: in a stylesheet, outside a comment, when the innermost function
    label at the start of the prefix is [meta.function.NAME.SUFFIX], the
    classifier answers with the table's list for [NAME] followed by the
    [var()] completion, bare when [NAME] is non-empty and in the functions'
    allow set and with the suppress flag otherwise; the other labels of the
    stack, the property value or the at-rule around the call, play no
    part. *)
Theorem function_argument_completions (doc : document) (prefix : string)
    (location : Z) (outer inner : list string) (name suffix : string) :
  Selector.has_prefix "comment.block.css" (doc location) = false →
  doc (location - len_str prefix)
  = (outer ++ ("meta.function" ++ String "." (name ++ String "." suffix))%string
           :: inner)%list →
  in_stylesheet (doc (location - len_str prefix)) = true →
  Forall label_ok (doc (location - len_str prefix)) →
  Forall (λ label, startswith label "meta.function." = false) inner →
  has_char "." name = false →
  has_char "." suffix = false →
  on_query_completions T (view_of doc) prefix [location]
  = Ok (lookup_result T name
          (default [] (f_func_name_to_completions T !! name))
          (f_allow_word_completions T)).
Proof.
  intros Hcomment Hdoc Hcss Hok Hin Hname Hsuffix.
  unfold on_query_completions, in_stylesheet in *. simpl.
  cbn [match_selector view_of]. eval_selectors.
  rewrite Hcomment, Hcss. simpl.
  assert (Hfun : Selector.has_prefix "meta.function" (doc (location - len_str prefix))
                 = true).
  { rewrite Hdoc. unfold Selector.has_prefix. rewrite existsb_app. simpl.
    change (startswith ("meta.function" ++ String "." (name ++ String "." suffix))
              "meta.function") with true.
    apply orb_true_r. }
  rewrite Hfun. simpl.
  unfold get_current_scopes. cbn [scope_name view_of].
  rewrite split_ws_join_sp by done.
  unfold get_functions, lookup_result. rewrite Hdoc.
  rewrite get_name_innermost;
    [|exact (prefix_app "meta.function." (name ++ String "." suffix))|done].
  rewrite split_on_label, getitem_penultimate by done. simpl.
  by destruct (truthy name && _).
Qed.

(** X12: in a stylesheet, outside a comment and outside a function, at a
    position inside an [@charset] rule and no other at-rule, the classifier
    offers the single item ["UTF-8";] with word completions suppressed,
    whatever the prefix. *)
Theorem charset_completions (doc : document) (prefix : string) (location : Z) :
  Selector.has_prefix "comment.block.css" (doc location) = false →
  in_stylesheet (doc (location - len_str prefix)) = true →
  Selector.has_prefix "meta.function" (doc (location - len_str prefix)) = false →
  Selector.has_prefix "meta.at-rule.charset.css" (doc (location - len_str prefix))
  = true →
  Forall (λ label, startswith label "meta.at-rule" = true →
                   startswith label "meta.at-rule.charset.css" = true)
    (doc (location - len_str prefix)) →
  on_query_completions T (view_of doc) prefix [location]
  = Ok (RTuple [charset_completion] INHIBIT_WORD_COMPLETIONS).
Proof.
  intros Hcomment Hcss Hfun Hcharset Honly.
  assert (Hat : Selector.has_prefix "meta.at-rule" (doc (location - len_str prefix))
                = true).
  { by apply (has_prefix_weaken _ "meta.at-rule.charset.css"). }
  assert (Hother : ∀ p,
            String.prefix "meta.at-rule" p = true →
            String.prefix p "meta.at-rule.charset.css" = false →
            String.prefix "meta.at-rule.charset.css" p = false →
            Selector.has_prefix p (doc (location - len_str prefix)) = false).
  { intros p. by apply has_prefix_other_at_rule. }
  unfold on_query_completions, handle_completions_inside_at_rules,
    should_offer_at_rule_completions, at_rule_kinds, in_stylesheet in *. simpl.
  cbn [match_selector view_of]. eval_selectors.
  rewrite Hcomment, Hcss, Hfun, Hat, Hcharset.
  rewrite (Hother "meta.at-rule.media.block.css"),
    (Hother "meta.at-rule.supports.block.css"),
    (Hother "meta.at-rule.keyframes.block.css"),
    (Hother "meta.at-rule.font-face.block.css"),
    (Hother "meta.at-rule.font-feature-values.block.css"),
    (Hother "meta.at-rule.viewport.block.css"),
    (Hother "meta.at-rule.page.block.css"),
    (Hother "meta.at-rule.page.css") by reflexivity.
  reflexivity.
Qed.

(** X13: in a stylesheet, outside a comment, a function, a property-value
    pair and every at-rule, a position in a property list gets the list of
    all property names with word completions suppressed, whatever the
    prefix; so does a position in a page margin box, unless the character
    before the prefix is an at-rule keyword introducer. *)
Theorem property_name_completions (doc : document) (prefix : string) (location : Z) :
  Selector.has_prefix "comment.block.css" (doc location) = false →
  in_stylesheet (doc (location - len_str prefix)) = true →
  Selector.has_prefix "meta.function" (doc (location - len_str prefix)) = false →
  Selector.has_prefix "meta.at-rule" (doc (location - len_str prefix)) = false →
  Selector.has_prefix "meta.property-value-pair" (doc (location - len_str prefix))
  = false →
  Selector.has_prefix "meta.property-list.css" (doc (location - len_str prefix)) = true
  ∨ (Selector.has_prefix "meta.page-margin-box.css" (doc (location - len_str prefix))
     = true
     ∧ Selector.has_prefix "punctuation.definition.keyword.css"
         (doc (location - len_str prefix - 1)) = false) →
  on_query_completions T (view_of doc) prefix [location]
  = Ok (RTuple (p_names T) INHIBIT_WORD_COMPLETIONS).
Proof.
  intros Hcomment Hcss Hfun Hat Hpair Hlist.
  unfold on_query_completions, property_name_scope, in_stylesheet in *. simpl.
  cbn [match_selector view_of]. eval_selectors.
  rewrite Hcomment, Hcss, Hfun, Hat, Hpair. simpl.
  rewrite !andb_true_r, !orb_false_r.
  destruct Hlist as [->|[-> ->]]; simpl; [done|].
  by rewrite andb_false_r, orb_true_r.
Qed.


End EndToEnd.

Lemma function_argument_completions_witness :
  on_query_completions sample_tables (view_of function_in_value_doc) "25" [12]
  = Ok (RTuple [["<number>"]; sample_var] INHIBIT_WORD_COMPLETIONS).
Proof.
  apply (function_argument_completions sample_tables function_in_value_doc "25" 12
           ["source.css"; "meta.property-list.css"; "meta.property-value-pair.color.css"]
           [] "rgb" "css"); try reflexivity.
  - unfold function_in_value_doc.
    repeat (apply List.Forall_cons; [by apply label_okb_ok|]).
    apply List.Forall_nil.
  - apply List.Forall_nil.
Defined.

(** A stylesheet that is one [@charset] rule. *)
Lemma charset_completions_witness :
  on_query_completions sample_tables
    (view_of (λ _, ["source.css"; "meta.at-rule.charset.css"])) "UT" [12]
  = Ok (RTuple [charset_completion] INHIBIT_WORD_COMPLETIONS).
Proof.
  apply (charset_completions sample_tables
           (λ _, ["source.css"; "meta.at-rule.charset.css"]) "UT" 12);
    try reflexivity.
  repeat (apply List.Forall_cons; [intros H; first [reflexivity|discriminate H]|]).
  apply List.Forall_nil.
Defined.

Lemma property_name_completions_witness :
  on_query_completions sample_tables
    (view_of (λ _, ["source.css"; "meta.property-list.css"])) "col" [10]
  = Ok (RTuple (p_names sample_tables) INHIBIT_WORD_COMPLETIONS).
Proof.
  apply (property_name_completions sample_tables
           (λ _, ["source.css"; "meta.property-list.css"]) "col" 10);
    try reflexivity.
  left. reflexivity.
Defined.

(** In a page margin box, right after [@], the at-rule keywords come
    first. *)
Example margin_box_after_at_ex :
  on_query_completions sample_tables
    (view_of (doc_at 6 ["source.css"; "punctuation.definition.keyword.css"]
                       ["source.css"; "meta.page-margin-box.css"])) "" [7]
  = Ok (RTuple (s_at_rules sample_tables) INHIBIT_WORD_COMPLETIONS).
Proof. vm_compute. reflexivity. Qed.

Lemma function_and_property_lookups_test_own_set_witness :
  get_functions sample_tables ["source.css"; "meta.function.counter.css"]
  = Ok (RList [["decimal"]; ["disc"]; sample_var])
  ∧ get_property_values sample_tables
      ["source.css"; "meta.property-value-pair.color.css"]
    = Ok (RTuple [["red"]; ["blue"]; sample_var] INHIBIT_WORD_COMPLETIONS).
Proof.
  split.
  - destruct (proj1 (function_and_property_lookups_test_own_set sample_tables
                       ["source.css"; "meta.function.counter.css"]))
      as (name & Hn & Hallowed & _).
    injection Hn as <-. apply Hallowed. split; [discriminate|].
    unfold sample_tables. simpl. set_solver.
  - destruct (proj2 (function_and_property_lookups_test_own_set sample_tables
                       ["source.css"; "meta.property-value-pair.color.css"]))
      as (name & Hn & _ & Hsuppressed).
    injection Hn as <-. apply Hsuppressed. right.
    unfold sample_tables. simpl. set_solver.
Defined.

